(** * The Pico HID drivers of KVMD: [hid/lib/drivers-pico/factory.cpp]

    A shallow embedding of the two stateful drivers of the file, [UsbMouse]
    and [UsbKeyboard], and of the calls they make on the shared USB device
    object [gKbMouse].

    - A C++ [int] is a [Z]; the only arithmetic the drivers do on their
      fields is [|=], [&=] and [~], for which [Z.lor], [Z.land] and [Z.lnot]
      are the two's complement operations (no wrap-around can occur).
    - A store into a [uint8_t] keeps the low eight bits: [to_u8]. The
      [uint8_t code] of [sendKey] is a [Z] that callers take from 0..255;
      nothing below depends on that range.
    - [std::set<int>] is a [gset Z]; its iterators walk it in ascending
      order, which is [set_begin_to_end].
    - [gKbMouse] is outside the file: the embedding records the calls made
      on it, in order, with the arguments as written at the call site.
    - The enumerators and macros of [USBMouseKeyboard.h] and the function
      [keymapUsb] of [usb-keymap.h] are outside the file as well: they are
      section variables. *)

From Stdlib Require Import ZArith List Lia Bool.
From stdpp Require Import base numbers list sorting gmap fin_sets.

Local Open Scope Z_scope.

(** ** Integers *)

(** Conversion of an [int] to [uint8_t]. *)
Definition to_u8 (v : Z) : Z := v mod 256.

(** [mask] and [mask'] have no bit in common. *)
Definition disjoint_bits (mask mask' : Z) : Prop := Z.land mask mask' = 0.

(** What [mButtons |= mask] ([b] true) and [mButtons &= ~mask] ([b] false)
    make of the mask [v]. *)
Definition set_or_clear (b : bool) (mask v : Z) : Z :=
  if b then Z.lor v mask else Z.land v (Z.lnot mask).

(** ** The USB device object and the driver monad *)

(** One call on [gKbMouse]. A report is sent as the [length] first bytes of
    its [data] array. *)
Inductive UsbCall : Type :=
| Move (x y : Z)
| Update (x y buttons z : Z)
| Send (bytes : list Z).

(** A driver object of class [S] together with the calls made on [gKbMouse]
    so far (oldest first). *)
Record World (S : Type) : Type := mkWorld { self : S; gKbMouse : list UsbCall }.
Arguments mkWorld {S} _ _.
Arguments self {S} _.
Arguments gKbMouse {S} _.

(** A method of class [S] returning an [A]. *)
Definition Drv (S A : Type) : Type := World S -> A * World S.

#[global] Instance drv_ret {S} : MRet (Drv S) :=
  fun A (a : A) w => (a, w).

#[global] Instance drv_bind {S} : MBind (Drv S) :=
  fun A B (k : A -> Drv S B) (m : Drv S A) w => let (a, w') := m w in k a w'.

Definition this {S} : Drv S S := fun w => (self w, w).

Definition assign {S} (f : S -> S) : Drv S unit :=
  fun w => (tt, mkWorld (f (self w)) (gKbMouse w)).

Definition usb {S} (c : UsbCall) : Drv S unit :=
  fun w => (tt, mkWorld (self w) (gKbMouse w ++ [c])).

(** The world a method leaves. *)
Definition exec {S A} (m : Drv S A) (w : World S) : World S := snd (m w).

(** The value a method returns. *)
Definition result {S A} (m : Drv S A) (w : World S) : A := fst (m w).

(** ** [class UsbMouse] *)

Record UsbMouse : Type := mkUsbMouse {
  mPositionX : Z;
  mPositionY : Z;
  mScroll : Z;
  mButtons : Z
}.

Definition set_mPositionX (v : Z) (m : UsbMouse) : UsbMouse :=
  mkUsbMouse v (mPositionY m) (mScroll m) (mButtons m).
Definition set_mPositionY (v : Z) (m : UsbMouse) : UsbMouse :=
  mkUsbMouse (mPositionX m) v (mScroll m) (mButtons m).
Definition set_mScroll (v : Z) (m : UsbMouse) : UsbMouse :=
  mkUsbMouse (mPositionX m) (mPositionY m) v (mButtons m).
Definition set_mButtons (v : Z) (m : UsbMouse) : UsbMouse :=
  mkUsbMouse (mPositionX m) (mPositionY m) (mScroll m) v.

(** The cached absolute position. *)
Definition position (m : UsbMouse) : Z * Z := (mPositionX m, mPositionY m).

Module Mouse.
Section Mouse.

(** [enum MOUSE_BUTTON] of the USB library. *)
Variables MOUSE_LEFT MOUSE_RIGHT MOUSE_MIDDLE : Z.

(** The three masks together. *)
Definition button_bits : Z :=
  Z.lor MOUSE_LEFT (Z.lor MOUSE_RIGHT MOUSE_MIDDLE).

Definition begin : Drv UsbMouse unit := mret tt.

Definition clear : Drv UsbMouse unit :=
  assign (set_mButtons 0) ;;
  assign (set_mPositionX 0) ;;
  assign (set_mPositionY 0) ;;
  assign (set_mScroll 0).

Definition sendUpdate : Drv UsbMouse unit :=
  m ← this;
  usb (Update (mPositionX m) (mPositionY m) (mButtons m) (mScroll m)).

(** [mButtons |= mask] and [mButtons &= ~mask]. *)
Definition or_mButtons (mask : Z) : Drv UsbMouse unit :=
  assign (fun m => set_mButtons (Z.lor (mButtons m) mask) m).
Definition and_not_mButtons (mask : Z) : Drv UsbMouse unit :=
  assign (fun m => set_mButtons (Z.land (mButtons m) (Z.lnot mask)) m).

Definition sendButtons
    (leftSelect leftState rightSelect rightState
     middleSelect middleState upSelect upState
     downSelect downState : bool) : Drv UsbMouse unit :=
  (if leftState then or_mButtons MOUSE_LEFT
   else and_not_mButtons MOUSE_LEFT) ;;
  (if rightSelect then or_mButtons MOUSE_RIGHT
   else and_not_mButtons MOUSE_RIGHT) ;;
  (if middleState then or_mButtons MOUSE_MIDDLE
   else and_not_mButtons MOUSE_MIDDLE) ;;
  sendUpdate.

Definition sendRelative (x y : Z) : Drv UsbMouse unit :=
  usb (Move x y).

Definition sendMove (x y : Z) : Drv UsbMouse unit :=
  assign (set_mPositionX x) ;;
  assign (set_mPositionY y) ;;
  sendUpdate.

Definition sendWheel (z : Z) : Drv UsbMouse unit :=
  assign (set_mScroll z) ;;
  sendUpdate.

Definition isOffline : Drv UsbMouse bool := mret false.

(** The operations of the class, as a caller sees them. *)
Inductive Call : Type :=
| CallBegin
| CallClear
| CallSendButtons
    (leftSelect leftState rightSelect rightState
    middleSelect middleState upSelect upState
    downSelect downState : bool)
| CallSendRelative (x y : Z)
| CallSendMove (x y : Z)
| CallSendWheel (z : Z)
| CallIsOffline.

Definition call (c : Call) : Drv UsbMouse unit :=
  match c with
  | CallBegin => begin
  | CallClear => clear
  | CallSendButtons ls lt rs rt ms mt us ut ds dt =>
      sendButtons ls lt rs rt ms mt us ut ds dt
  | CallSendRelative x y => sendRelative x y
  | CallSendMove x y => sendMove x y
  | CallSendWheel z => sendWheel z
  | CallIsOffline => isOffline ;; mret tt
  end.

(** A sequence of operations on one mouse object, first one first. *)
Fixpoint calls (cs : list Call) : Drv UsbMouse unit :=
  match cs with
  | [] => mret tt
  | c :: cs' => call c ;; calls cs'
  end.

(** The operations whose body assigns [mScroll], and those whose body
    assigns [mButtons]. *)
Definition assigns_mScroll (c : Call) : bool :=
  match c with
  | CallClear | CallSendWheel _ => true
  | _ => false
  end.

Definition assigns_mButtons (c : Call) : bool :=
  match c with
  | CallClear | CallSendButtons _ _ _ _ _ _ _ _ _ _ => true
  | _ => false
  end.

(** The operations whose body reaches a call on [gKbMouse]. *)
Definition reaches_device (c : Call) : bool :=
  match c with
  | CallSendButtons _ _ _ _ _ _ _ _ _ _
  | CallSendRelative _ _ | CallSendMove _ _ | CallSendWheel _ => true
  | _ => false
  end.

End Mouse.
End Mouse.

(** ** [class UsbKeyboard] *)

Record UsbKeyboard : Type := mkUsbKeyboard {
  mModifiers : Z;
  mKeys : gset Z
}.

Definition set_mModifiers (v : Z) (k : UsbKeyboard) : UsbKeyboard :=
  mkUsbKeyboard v (mKeys k).
Definition set_mKeys (s : gset Z) (k : UsbKeyboard) : UsbKeyboard :=
  mkUsbKeyboard (mModifiers k) s.

(** The elements of a [std::set<int>] in the order in which an iterator
    meets them from [cbegin()] on: ascending. *)
Definition set_begin_to_end (s : gset Z) : list Z :=
  merge_sort Z.le (elements s).

(** [*s.cbegin()], when [s.cbegin() != s.cend()]. *)
Definition cbegin (s : gset Z) : option Z := head (set_begin_to_end s).

(** [struct HID_REPORT] of the USB library: a length and a byte array,
    here as a map from index to byte. *)
Module HID_REPORT.
Record t : Type := mk { length : Z; data : Z -> Z }.

(** [report.data[i] = v], with the conversion to [uint8_t]. *)
Definition set_data (i v : Z) (r : t) : t :=
  mk (length r) (fun j => if Z.eqb j i then to_u8 v else data r j).

Definition set_length (n : Z) (r : t) : t := mk n (data r).

(** The bytes that go on the wire: [data[0 .. length-1]]. *)
Definition bytes (r : t) : list Z :=
  map (fun i => data r (Z.of_nat i)) (seq 0 (Z.to_nat (length r))).
End HID_REPORT.

Module Keyboard.
Section Keyboard.

(** [enum MODIFIER_KEY] and the report id of the USB library. *)
Variables KEY_CTRL KEY_SHIFT KEY_ALT KEY_LOGO : Z.
Variables KEY_RCTRL KEY_RSHIFT KEY_RALT : Z.
Variable REPORT_ID_KEYBOARD : Z.

(** The key code table of [usb-keymap.h]. *)
Variable keymapUsb : Z -> Z.

(** What the automatic variable [report] of [sendRaport] holds before it is
    written to: indeterminate. *)
Variable report0 : HID_REPORT.t.

Definition begin : Drv UsbKeyboard unit := mret tt.

Definition clear : Drv UsbKeyboard unit :=
  assign (set_mKeys ∅).

Definition codeToModifier (code : Z) : Z :=
  match code with
  | 77 => KEY_CTRL
  | 78 => KEY_SHIFT
  | 79 => KEY_ALT
  | 80 => KEY_LOGO
  | 81 => KEY_RCTRL
  | 82 => KEY_RSHIFT
  | 83 => KEY_RALT
  | _ => -1
  end.

(** The loop of [sendRaport]: [count] rounds from index [i] on, each
    storing [*iter] at [data[3 + i]] and advancing both. *)
Fixpoint fill_keys (count : nat) (i : Z) (iter : list Z)
    (report : HID_REPORT.t) : HID_REPORT.t :=
  match count, iter with
  | S count', key :: iter' =>
      fill_keys count' (i + 1) iter' (HID_REPORT.set_data (3 + i) key report)
  | _, _ => report
  end.

(** The report [sendRaport] builds for a keyboard object. *)
Definition build_report (k : UsbKeyboard) : HID_REPORT.t :=
  let report := HID_REPORT.set_data 0 REPORT_ID_KEYBOARD report0 in
  let report := HID_REPORT.set_data 1 (mModifiers k) report in
  let report := HID_REPORT.set_data 2 0 report in
  let report := HID_REPORT.set_data 3 0 report in
  let report := HID_REPORT.set_data 4 0 report in
  let report := HID_REPORT.set_data 5 0 report in
  let report := HID_REPORT.set_data 6 0 report in
  let report := HID_REPORT.set_data 7 0 report in
  let report := HID_REPORT.set_data 8 0 report in
  let report :=
    fill_keys (Nat.min (size (mKeys k)) 1) 0 (set_begin_to_end (mKeys k))
      report in
  HID_REPORT.set_length 9 report.

Definition sendRaport : Drv UsbKeyboard unit :=
  k ← this;
  usb (Send (HID_REPORT.bytes (build_report k))).

Definition sendKey (code : Z) (state : bool) : Drv UsbKeyboard unit :=
  let mod_ := codeToModifier code in
  (if negb (mod_ =? -1) then
     if state then
       assign (fun k => set_mModifiers (Z.lor (mModifiers k) mod_) k)
     else
       assign (fun k => set_mModifiers (Z.land (mModifiers k) (Z.lnot mod_)) k)
   else
     let key := keymapUsb code in
     if state then
       k ← this;
       if (size (mKeys k) <? 5)%nat then
         assign (fun k => set_mKeys ({[key]} ∪ mKeys k) k)
       else mret tt
     else
       k ← this;
       if decide (key ∈ mKeys k) then
         assign (fun k => set_mKeys (mKeys k ∖ {[key]}) k)
       else mret tt) ;;
  sendRaport.

Definition isOffline : Drv UsbKeyboard bool := mret false.

(** A keyboard object as its constructor leaves it: [mKeys] empty,
    [mModifiers] not initialised. *)
Definition constructed (modifiers0 : Z) : UsbKeyboard :=
  mkUsbKeyboard modifiers0 ∅.

(** A sequence of [sendKey] calls, first call first. *)
Fixpoint sendKeys (calls : list (Z * bool)) : Drv UsbKeyboard unit :=
  match calls with
  | [] => mret tt
  | (code, state) :: calls' => sendKey code state ;; sendKeys calls'
  end.

(** [mKeys] read as an insertion-ordered set, to compare with the
    [std::set] of the class: the usages held after [calls], the one pressed
    first at the head. A press appends the usage when it is not held and
    fewer than 5 are; a release removes it; a modifier code does neither. *)
Definition press_order_step (held : list Z) (call : Z * bool) : list Z :=
  let (code, state) := call in
  if negb (codeToModifier code =? -1) then held
  else
    let key := keymapUsb code in
    if state then
      if (length held <? 5)%nat && negb (bool_decide (key ∈ held))
      then held ++ [key] else held
    else filter (fun usage => usage <> key) held.

Definition insertion_ordered_keys (calls : list (Z * bool)) : list Z :=
  fold_left press_order_step calls [].

(** The operations of the class, as a caller sees them, and a sequence of
    them on one keyboard object, first one first. *)
Inductive Call : Type :=
| CallBegin
| CallClear
| CallSendKey (code : Z) (state : bool)
| CallIsOffline.

Definition call (c : Call) : Drv UsbKeyboard unit :=
  match c with
  | CallBegin => begin
  | CallClear => clear
  | CallSendKey code state => sendKey code state
  | CallIsOffline => isOffline ;; mret tt
  end.

Fixpoint calls (cs : list Call) : Drv UsbKeyboard unit :=
  match cs with
  | [] => mret tt
  | c :: cs' => call c ;; calls cs'
  end.

(** The operations whose body reaches a call on [gKbMouse]. *)
Definition reaches_device (c : Call) : bool :=
  match c with
  | CallSendKey _ _ => true
  | _ => false
  end.

(** The seven masks [codeToModifier] can return, together. *)
Definition modifier_bits : Z :=
  Z.lor KEY_CTRL (Z.lor KEY_SHIFT (Z.lor KEY_ALT (Z.lor KEY_LOGO
    (Z.lor KEY_RCTRL (Z.lor KEY_RSHIFT KEY_RALT))))).

End Keyboard.
End Keyboard.

(** ** [namespace DRIVERS]: the factory

    What the preprocessor leaves of the file depends on which macros the
    build defines. The enumerators of [DRIVERS::type] are declared outside
    the file: they are section variables. *)
Module Factory.

(** The macros the file tests, each defined or not. *)
Record Config : Type := mkConfig {
  HID_DYNAMIC : bool;
  HID_SET_USB_MOUSE_ABS : bool;
  HID_SET_USB_MOUSE_REL : bool;
  HID_SET_USB_KBD : bool;
  CMD_SERIAL : bool
}.




(** The objects the factory creates: the class and its constructor
    argument, if it has one. *)
Inductive KeyboardObject : Type :=
| NewUsbKeyboard
| NewKeyboard (type : Z).


Inductive StorageObject : Type :=
| NewStorage (type : Z).

Inductive BoardObject : Type :=
| NewPicoBoard
| NewBoard (type : Z).

Section Factory.
Variables DUMMY USB_KEYBOARD USB_MOUSE_ABSOLUTE USB_MOUSE_RELATIVE BOARD : Z.

Definition makeKeyboard (cfg : Config) (_type : Z) : KeyboardObject :=
  if HID_DYNAMIC cfg then
    if _type =? USB_KEYBOARD then NewUsbKeyboard else NewKeyboard DUMMY
  else if HID_SET_USB_KBD cfg then NewUsbKeyboard
  else NewKeyboard DUMMY.


Definition makeStorage (_type : Z) : StorageObject := NewStorage DUMMY.

Definition makeBoard (_type : Z) : BoardObject :=
  if _type =? BOARD then NewPicoBoard else NewBoard DUMMY.

End Factory.
End Factory.

(** ** Sample values

    Values for the section variables, used in the closed examples below:
    one bit per enumerator in the order of a HID boot report, report id 1,
    and a key code table that gives the letter keys (codes 1..26) the
    usage ids 4..29 and every other code 0. The report variable starts
    with every byte 170. *)
Module Sample.
Definition MOUSE_LEFT : Z := 1.
Definition MOUSE_RIGHT : Z := 2.
Definition MOUSE_MIDDLE : Z := 4.
Definition KEY_CTRL : Z := 1.
Definition KEY_SHIFT : Z := 2.
Definition KEY_ALT : Z := 4.
Definition KEY_LOGO : Z := 8.
Definition KEY_RCTRL : Z := 16.
Definition KEY_RSHIFT : Z := 32.
Definition KEY_RALT : Z := 64.
Definition REPORT_ID_KEYBOARD : Z := 1.
Definition keymapUsb (code : Z) : Z :=
  if (1 <=? code) && (code <=? 26) then code + 3 else 0.
Definition report0 : HID_REPORT.t := HID_REPORT.mk 0 (fun _ => 170).
Definition mouse0 : UsbMouse := mkUsbMouse 0 0 0 0.
End Sample.

(** The keyboard driver with the sample values. *)
Module SampleKeyboard.
Definition sendKeys : list (Z * bool) -> Drv UsbKeyboard unit :=
  Keyboard.sendKeys Sample.KEY_CTRL Sample.KEY_SHIFT Sample.KEY_ALT
    Sample.KEY_LOGO Sample.KEY_RCTRL Sample.KEY_RSHIFT Sample.KEY_RALT
    Sample.REPORT_ID_KEYBOARD Sample.keymapUsb Sample.report0.
Definition insertion_ordered_keys : list (Z * bool) -> list Z :=
  Keyboard.insertion_ordered_keys Sample.KEY_CTRL Sample.KEY_SHIFT
    Sample.KEY_ALT Sample.KEY_LOGO Sample.KEY_RCTRL Sample.KEY_RSHIFT
    Sample.KEY_RALT Sample.keymapUsb.
Definition build_report : UsbKeyboard -> HID_REPORT.t :=
  Keyboard.build_report Sample.REPORT_ID_KEYBOARD Sample.report0.
Definition start : World UsbKeyboard := mkWorld (Keyboard.constructed 0) [].
Definition two_keys : UsbKeyboard := mkUsbKeyboard 0 {[5; 4]}.
End SampleKeyboard.

(** * Properties *)

(** ** The driver monad *)

Section DrvFacts.
Context {S : Type}.

Lemma exec_bind {A B} (m : Drv S A) (k : A -> Drv S B) (w : World S) :
  exec (m ≫= k) w = exec (k (result m w)) (exec m w).
Proof. unfold exec, result, mbind, drv_bind. by destruct (m w). Qed.

Lemma exec_ret {A} (a : A) (w : World S) : exec (mret a) w = w.
Proof. done. Qed.

Lemma result_this (w : World S) : result this w = self w.
Proof. done. Qed.

Lemma exec_this (w : World S) : exec this w = w.
Proof. done. Qed.

Lemma self_assign (f : S -> S) (w : World S) :
  self (exec (assign f) w) = f (self w).
Proof. done. Qed.

Lemma gKbMouse_assign (f : S -> S) (w : World S) :
  gKbMouse (exec (assign f) w) = gKbMouse w.
Proof. done. Qed.

Lemma self_usb (c : UsbCall) (w : World S) : self (exec (usb c) w) = self w.
Proof. done. Qed.

Lemma gKbMouse_usb (c : UsbCall) (w : World S) :
  gKbMouse (exec (usb c) w) = gKbMouse w ++ [c].
Proof. done. Qed.

End DrvFacts.

(** ** Bit masks *)

Lemma disjoint_bits_testbit (a b : Z) (i : Z) :
  disjoint_bits a b -> Z.testbit a i = true -> Z.testbit b i = false.
Proof.
  unfold disjoint_bits. intros Hd Ha.
  assert (Hi : Z.testbit (Z.land a b) i = false) by (rewrite Hd; apply Z.bits_0).
  rewrite Z.land_spec, Ha in Hi. exact Hi.
Qed.

(** [mask] is set in [v | mask] and clear in [v & ~mask]. *)
Lemma land_lor_same (v mask : Z) : Z.land (Z.lor v mask) mask = mask.
Proof.
  apply Z.bits_inj'. intros i _. rewrite Z.land_spec, Z.lor_spec.
  destruct (Z.testbit v i), (Z.testbit mask i); reflexivity.
Qed.

Lemma land_lnot_same (v mask : Z) : Z.land (Z.land v (Z.lnot mask)) mask = 0.
Proof.
  apply Z.bits_inj'. intros i Hi.
  rewrite !Z.land_spec, Z.lnot_spec, Z.bits_0 by exact Hi.
  destruct (Z.testbit v i), (Z.testbit mask i); reflexivity.
Qed.

(** Setting or clearing [mask'] leaves the bits of a disjoint [mask]. *)
Lemma land_lor_other (v mask mask' : Z) :
  disjoint_bits mask mask' -> Z.land (Z.lor v mask') mask = Z.land v mask.
Proof.
  intros Hd. apply Z.bits_inj'. intros i _. rewrite !Z.land_spec, Z.lor_spec.
  destruct (Z.testbit mask i) eqn:Hm; [| by rewrite !andb_false_r].
  by rewrite (disjoint_bits_testbit _ _ _ Hd Hm), orb_false_r.
Qed.

Lemma land_lnot_other (v mask mask' : Z) :
  disjoint_bits mask mask' ->
  Z.land (Z.land v (Z.lnot mask')) mask = Z.land v mask.
Proof.
  intros Hd. apply Z.bits_inj'. intros i Hi.
  rewrite !Z.land_spec, Z.lnot_spec by exact Hi.
  destruct (Z.testbit mask i) eqn:Hm; [| by rewrite !andb_false_r].
  by rewrite (disjoint_bits_testbit _ _ _ Hd Hm), !andb_true_r.
Qed.

(** A bit outside [mask] is the same in [v], [v | mask] and [v & ~mask]. *)
Lemma testbit_lor_outside (v mask i : Z) :
  Z.testbit mask i = false -> Z.testbit (Z.lor v mask) i = Z.testbit v i.
Proof. intros Hm. by rewrite Z.lor_spec, Hm, orb_false_r. Qed.

Lemma testbit_land_lnot_outside (v mask i : Z) :
  0 <= i -> Z.testbit mask i = false ->
  Z.testbit (Z.land v (Z.lnot mask)) i = Z.testbit v i.
Proof.
  intros Hi Hm. by rewrite Z.land_spec, Z.lnot_spec, Hm, andb_true_r.
Qed.

(** ** The mouse driver *)

Section MouseFacts.
Variables MOUSE_LEFT MOUSE_RIGHT MOUSE_MIDDLE : Z.

#[local] Abbreviation sendButtons :=
  (Mouse.sendButtons MOUSE_LEFT MOUSE_RIGHT MOUSE_MIDDLE).
#[local] Abbreviation call := (Mouse.call MOUSE_LEFT MOUSE_RIGHT MOUSE_MIDDLE).

Lemma exec_sendUpdate (w : World UsbMouse) :
  exec Mouse.sendUpdate w =
  mkWorld (self w)
    (gKbMouse w ++ [Update (mPositionX (self w)) (mPositionY (self w))
                      (mButtons (self w)) (mScroll (self w))]).
Proof. done. Qed.

Lemma exec_sendButtons ls lt rs rt ms mt us ut ds dt (w : World UsbMouse) :
  let m := self w in
  let buttons :=
    set_or_clear mt MOUSE_MIDDLE
      (set_or_clear rs MOUSE_RIGHT (set_or_clear lt MOUSE_LEFT (mButtons m))) in
  exec (sendButtons ls lt rs rt ms mt us ut ds dt) w =
  mkWorld (mkUsbMouse (mPositionX m) (mPositionY m) (mScroll m) buttons)
    (gKbMouse w ++ [Update (mPositionX m) (mPositionY m) buttons (mScroll m)]).
Proof. by destruct lt, rs, mt. Qed.

Lemma set_or_clear_same (b : bool) (mask v : Z) :
  Z.land (set_or_clear b mask v) mask = if b then mask else 0.
Proof. destruct b; [apply land_lor_same | apply land_lnot_same]. Qed.

Lemma set_or_clear_other (b : bool) (mask mask' v : Z) :
  disjoint_bits mask mask' ->
  Z.land (set_or_clear b mask' v) mask = Z.land v mask.
Proof. destruct b; [apply land_lor_other | apply land_lnot_other]. Qed.

Lemma set_or_clear_outside (b : bool) (mask v i : Z) :
  0 <= i -> Z.testbit mask i = false ->
  Z.testbit (set_or_clear b mask v) i = Z.testbit v i.
Proof.
  intros Hi Hm. destruct b; simpl.
  - by apply testbit_lor_outside.
  - by apply testbit_land_lnot_outside.
Qed.

(** C1, as the code has it: [sendButtons] sets or clears the LEFT bit by
    [leftState] and the MIDDLE bit by [middleState] whatever [leftSelect]
    and [middleSelect] are; the up and down buttons have no bit, and every
    bit outside LEFT, RIGHT and MIDDLE keeps its value. From an all-zero
    mask, a call with [leftSelect] and [leftState] true and every other
    argument false leaves exactly the LEFT mask, and a further call with
    [leftSelect] false and [leftState] true leaves it so. *)
Theorem sendButtons_left_middle_by_state
    ls lt rs rt ms mt us ut ds dt (w : World UsbMouse) :
  disjoint_bits MOUSE_LEFT MOUSE_RIGHT ->
  disjoint_bits MOUSE_LEFT MOUSE_MIDDLE ->
  let after := exec (sendButtons ls lt rs rt ms mt us ut ds dt) w in
  Z.land (mButtons (self after)) MOUSE_LEFT = (if lt then MOUSE_LEFT else 0) /\
  Z.land (mButtons (self after)) MOUSE_MIDDLE =
    (if mt then MOUSE_MIDDLE else 0) /\
  (forall i, 0 <= i ->
     Z.testbit (Mouse.button_bits MOUSE_LEFT MOUSE_RIGHT MOUSE_MIDDLE) i
       = false ->
     Z.testbit (mButtons (self after)) i = Z.testbit (mButtons (self w)) i) /\
  (mButtons (self w) = 0 ->
   let first :=
     exec (sendButtons true true false false false false false false false
             false) w in
   let second :=
     exec (sendButtons false true false false false false false false false
             false) first in
   mButtons (self first) = MOUSE_LEFT /\ mButtons (self second) = MOUSE_LEFT).
Proof.
  intros HLR HLM after. subst after. rewrite !exec_sendButtons. simpl.
  split; [| split; [| split]].
  - rewrite !set_or_clear_other by assumption. apply set_or_clear_same.
  - apply set_or_clear_same.
  - intros i Hi Hout. unfold Mouse.button_bits in Hout.
    rewrite !Z.lor_spec in Hout.
    apply orb_false_elim in Hout as [HL Hout].
    apply orb_false_elim in Hout as [HR HM].
    by rewrite !set_or_clear_outside.
  - intros Hzero. rewrite Hzero. unfold set_or_clear.
    assert (Hkeep : Z.land (Z.land MOUSE_LEFT (Z.lnot MOUSE_RIGHT))
                      (Z.lnot MOUSE_MIDDLE) = MOUSE_LEFT).
    { apply Z.bits_inj'. intros i Hi.
      rewrite !Z.land_spec, !Z.lnot_spec by exact Hi.
      destruct (Z.testbit MOUSE_LEFT i) eqn:HL; [| done].
      by rewrite (disjoint_bits_testbit _ _ _ HLR HL),
        (disjoint_bits_testbit _ _ _ HLM HL). }
    rewrite Z.lor_0_l, Hkeep. split; [done |].
    by rewrite Z.lor_diag, Hkeep.
Qed.

(** C10: [sendButtons] leaves the cached position and the cached scroll
    value as they were, and makes exactly one [update] call on the device,
    with the position and scroll cached before the call and the buttons
    mask it has just computed. *)
Theorem sendButtons_frame
    ls lt rs rt ms mt us ut ds dt (w : World UsbMouse) :
  let after := exec (sendButtons ls lt rs rt ms mt us ut ds dt) w in
  mPositionX (self after) = mPositionX (self w) /\
  mPositionY (self after) = mPositionY (self w) /\
  mScroll (self after) = mScroll (self w) /\
  gKbMouse after =
    gKbMouse w ++ [Update (mPositionX (self w)) (mPositionY (self w))
                     (mButtons (self after)) (mScroll (self w))].
Proof. intros after. subst after. by rewrite exec_sendButtons. Qed.

(** C7: [sendRelative] makes one [move] call with its two arguments and
    leaves the driver object, hence the cached position, as it was;
    [sendMove] stores its arguments as the cached position and then makes
    the [update] call with them; [clear] zeroes the position; no other
    operation of the class writes it. *)
Theorem position_written_by_sendMove_only (c : Mouse.Call)
    (w : World UsbMouse) :
  let after := exec (call c) w in
  match c with
  | Mouse.CallSendRelative dx dy =>
      self after = self w /\ gKbMouse after = gKbMouse w ++ [Move dx dy]
  | Mouse.CallSendMove x y =>
      position (self after) = (x, y) /\
      gKbMouse after =
        gKbMouse w ++ [Update x y (mButtons (self w)) (mScroll (self w))]
  | Mouse.CallClear => position (self after) = (0, 0)
  | Mouse.CallBegin
  | Mouse.CallSendButtons _ _ _ _ _ _ _ _ _ _
  | Mouse.CallSendWheel _
  | Mouse.CallIsOffline => position (self after) = position (self w)
  end.
Proof.
  intros after. subst after. destruct c; simpl; try done.
  by rewrite exec_sendButtons.
Qed.

End MouseFacts.

Lemma sendButtons_left_middle_by_state_witness :
  let sendButtons :=
    Mouse.sendButtons Sample.MOUSE_LEFT Sample.MOUSE_RIGHT
      Sample.MOUSE_MIDDLE in
  let first :=
    exec (sendButtons true true false false false false false false false
            false) (mkWorld Sample.mouse0 []) in
  let second :=
    exec (sendButtons false true false false false false false false false
            false) first in
  mButtons (self first) = Sample.MOUSE_LEFT /\
  mButtons (self second) = Sample.MOUSE_LEFT.
Proof.
  exact (proj2 (proj2 (proj2 (sendButtons_left_middle_by_state
    Sample.MOUSE_LEFT Sample.MOUSE_RIGHT Sample.MOUSE_MIDDLE
    true true false false false false false false false false
    (mkWorld Sample.mouse0 []) eq_refl eq_refl))) eq_refl).
Defined.

(** C1, refuted as stated: with the LEFT bit set by a first call, a second
    call whose [leftSelect] is false (and [leftState] false) clears it. *)
Lemma sendButtons_unselected_left_cleared :
  let sendButtons :=
    Mouse.sendButtons Sample.MOUSE_LEFT Sample.MOUSE_RIGHT
      Sample.MOUSE_MIDDLE in
  let first :=
    exec (sendButtons true true false false false false false false false
            false) (mkWorld Sample.mouse0 []) in
  let second :=
    exec (sendButtons false false false false false false false false false
            false) first in
  Z.land (mButtons (self first)) Sample.MOUSE_LEFT = Sample.MOUSE_LEFT /\
  Z.land (mButtons (self second)) Sample.MOUSE_LEFT = 0 /\
  Z.land (mButtons (self second)) Sample.MOUSE_LEFT <>
    Z.land (mButtons (self first)) Sample.MOUSE_LEFT.
Proof. vm_compute. repeat split; discriminate. Qed.

(** ** Iterating a [std::set<int>] *)

Lemma set_begin_to_end_perm (s : gset Z) : set_begin_to_end s ≡ₚ elements s.
Proof. apply merge_sort_Permutation. Qed.

Lemma length_set_begin_to_end (s : gset Z) :
  length (set_begin_to_end s) = size s.
Proof. by rewrite set_begin_to_end_perm. Qed.

Lemma elem_of_set_begin_to_end (s : gset Z) (x : Z) :
  x ∈ set_begin_to_end s <-> x ∈ s.
Proof. by rewrite set_begin_to_end_perm, elem_of_elements. Qed.

Lemma set_begin_to_end_ascending (s : gset Z) :
  StronglySorted Z.le (set_begin_to_end s).
Proof. apply (StronglySorted_merge_sort Z.le). Qed.

Lemma set_begin_to_end_empty (s : gset Z) :
  set_begin_to_end s = [] <-> s = ∅.
Proof.
  split.
  - intros Hnil. apply set_eq. intros x.
    rewrite <- elem_of_set_begin_to_end, Hnil. set_solver.
  - intros ->. unfold set_begin_to_end. by rewrite elements_empty.
Qed.

Lemma set_begin_to_end_singleton (a : Z) : set_begin_to_end {[a]} = [a].
Proof. unfold set_begin_to_end. by rewrite elements_singleton. Qed.

(** The first element an iterator meets is the least of the set. *)
Lemma cbegin_least (s : gset Z) (m : Z) :
  cbegin s = Some m <-> m ∈ s /\ forall x, x ∈ s -> m <= x.
Proof.
  unfold cbegin.
  pose proof (set_begin_to_end_ascending s) as Hsorted.
  pose proof (elem_of_set_begin_to_end s) as Hin.
  destruct (set_begin_to_end s) as [|a l]; simpl.
  - split; [done |]. intros [Hm _]. apply Hin in Hm. by inversion Hm.
  - apply StronglySorted_inv in Hsorted as [_ Hall].
    rewrite Forall_forall in Hall.
    assert (Ha : a ∈ s /\ forall x, x ∈ s -> a <= x).
    { split; [apply Hin; left |].
      intros x Hx. apply Hin in Hx.
      apply elem_of_cons in Hx as [-> | Hx]; [lia | by apply Hall]. }
    split.
    + intros [= <-]. exact Ha.
    + intros [Hm Hle]. f_equal. destruct Ha as [Ha Hale].
      specialize (Hle _ Ha). specialize (Hale _ Hm). lia.
Qed.

Lemma cbegin_is_Some (s : gset Z) : s <> ∅ -> is_Some (cbegin s).
Proof.
  intros Hne. unfold cbegin.
  destruct (set_begin_to_end s) eqn:Hl; [| by eexists].
  by apply set_begin_to_end_empty in Hl.
Qed.

Lemma to_u8_small (v : Z) : 0 <= v < 256 -> to_u8 v = v.
Proof. intros Hv. unfold to_u8. by apply Z.mod_small. Qed.

(** ** The keyboard driver *)

Section KeyboardFacts.
Variables KEY_CTRL KEY_SHIFT KEY_ALT KEY_LOGO : Z.
Variables KEY_RCTRL KEY_RSHIFT KEY_RALT : Z.
Variable REPORT_ID_KEYBOARD : Z.
Variable keymapUsb : Z -> Z.
Variable report0 : HID_REPORT.t.

#[local] Abbreviation codeToModifier :=
  (Keyboard.codeToModifier KEY_CTRL KEY_SHIFT KEY_ALT KEY_LOGO
     KEY_RCTRL KEY_RSHIFT KEY_RALT).
#[local] Abbreviation build_report :=
  (Keyboard.build_report REPORT_ID_KEYBOARD report0).
#[local] Abbreviation sendRaport :=
  (Keyboard.sendRaport REPORT_ID_KEYBOARD report0).
#[local] Abbreviation sendKey :=
  (Keyboard.sendKey KEY_CTRL KEY_SHIFT KEY_ALT KEY_LOGO
     KEY_RCTRL KEY_RSHIFT KEY_RALT REPORT_ID_KEYBOARD keymapUsb report0).
#[local] Abbreviation sendKeys :=
  (Keyboard.sendKeys KEY_CTRL KEY_SHIFT KEY_ALT KEY_LOGO
     KEY_RCTRL KEY_RSHIFT KEY_RALT REPORT_ID_KEYBOARD keymapUsb report0).

#[local] Abbreviation press_order_step :=
  (Keyboard.press_order_step KEY_CTRL KEY_SHIFT KEY_ALT KEY_LOGO
     KEY_RCTRL KEY_RSHIFT KEY_RALT keymapUsb).
#[local] Abbreviation insertion_ordered_keys :=
  (Keyboard.insertion_ordered_keys KEY_CTRL KEY_SHIFT KEY_ALT KEY_LOGO
     KEY_RCTRL KEY_RSHIFT KEY_RALT keymapUsb).

(** The nine bytes of the report, for every keyboard object and whatever
    the report variable held before. *)
Lemma bytes_build_report (k : UsbKeyboard) :
  HID_REPORT.bytes (build_report k) =
  [to_u8 REPORT_ID_KEYBOARD; to_u8 (mModifiers k); 0;
   from_option to_u8 0 (cbegin (mKeys k)); 0; 0; 0; 0; 0].
Proof.
  unfold Keyboard.build_report, cbegin.
  rewrite <- length_set_begin_to_end.
  destruct (set_begin_to_end (mKeys k)) as [|key iter]; simpl.
  - reflexivity.
  - rewrite Nat.min_0_r. reflexivity.
Qed.

Lemma exec_sendRaport (w : World UsbKeyboard) :
  exec sendRaport w =
  mkWorld (self w) (gKbMouse w ++ [Send (HID_REPORT.bytes (build_report (self w)))]).
Proof. done. Qed.

Lemma self_sendRaport (w : World UsbKeyboard) :
  self (exec sendRaport w) = self w.
Proof. done. Qed.

(** [sendKey] ends with [sendRaport]: the device gets one report, of the
    object as the call leaves it. *)
Lemma gKbMouse_sendKey (code : Z) (state : bool) (w : World UsbKeyboard) :
  gKbMouse (exec (sendKey code state) w) =
  gKbMouse w ++
    [Send (HID_REPORT.bytes (build_report (self (exec (sendKey code state) w))))].
Proof.
  unfold Keyboard.sendKey. rewrite exec_bind, exec_sendRaport.
  cbn [gKbMouse self]. f_equal.
  destruct (negb _), state; try done.
  - rewrite exec_bind, result_this, exec_this.
    by destruct (_ <? _)%nat.
  - rewrite exec_bind, result_this, exec_this.
    by destruct (decide _).
Qed.

(** A code that [codeToModifier] knows: only [mModifiers] is written. *)
Lemma self_sendKey_modifier (code : Z) (state : bool) (w : World UsbKeyboard) :
  codeToModifier code <> -1 ->
  self (exec (sendKey code state) w) =
  set_mModifiers
    (set_or_clear state (codeToModifier code) (mModifiers (self w))) (self w).
Proof.
  intros Hmod. unfold Keyboard.sendKey.
  rewrite exec_bind, self_sendRaport.
  destruct (Z.eqb_spec (codeToModifier code) (-1)) as [|_]; [done |].
  by destruct state.
Qed.

(** Any other code, pressed. *)
Lemma self_sendKey_press (code : Z) (w : World UsbKeyboard) :
  codeToModifier code = -1 ->
  self (exec (sendKey code true) w) =
  if (size (mKeys (self w)) <? 5)%nat
  then set_mKeys ({[keymapUsb code]} ∪ mKeys (self w)) (self w)
  else self w.
Proof.
  intros Hmod. unfold Keyboard.sendKey.
  rewrite exec_bind, self_sendRaport, Hmod. simpl.
  rewrite exec_bind, result_this, exec_this.
  by destruct (_ <? _)%nat.
Qed.

(** Any other code, released. *)
Lemma self_sendKey_release (code : Z) (w : World UsbKeyboard) :
  codeToModifier code = -1 ->
  self (exec (sendKey code false) w) =
  set_mKeys (mKeys (self w) ∖ {[keymapUsb code]}) (self w).
Proof.
  intros Hmod. unfold Keyboard.sendKey.
  rewrite exec_bind, self_sendRaport, Hmod. simpl.
  rewrite exec_bind, result_this, exec_this.
  destruct (decide _) as [|Hout]; [done |].
  rewrite exec_ret. destruct w as [[modifiers keys] calls]. simpl in *.
  unfold set_mKeys. simpl. f_equal. symmetry.
  apply difference_disjoint_L. by apply disjoint_singleton_r.
Qed.

(** [codeToModifier] has seven cases, the codes 77 to 83. *)
Lemma codeToModifier_cases (code : Z) :
  codeToModifier code <> -1 -> 77 <= code <= 83.
Proof.
  intros Hmod. destruct code as [|p|p]; try done.
  do 7 (destruct p as [p|p|]; try done).
  all: lia.
Qed.

Lemma size_sendKey (code : Z) (state : bool) (w : World UsbKeyboard) :
  (size (mKeys (self w)) <= 5)%nat ->
  (size (mKeys (self (exec (sendKey code state) w))) <= 5)%nat.
Proof.
  intros Hsize.
  destruct (decide (codeToModifier code = -1)) as [Hmod | Hmod].
  - destruct state.
    + rewrite self_sendKey_press by done.
      destruct (Nat.ltb_spec (size (mKeys (self w))) 5) as [Hlt | _]; [| done].
      simpl. rewrite size_union_alt, size_singleton.
      pose proof (subseteq_size (mKeys (self w) ∖ {[keymapUsb code]})
                    (mKeys (self w))) as Hle.
      specialize (Hle (subseteq_difference_l _ _ _ (reflexivity _))). lia.
    + rewrite self_sendKey_release by done. simpl.
      etrans; [apply subseteq_size | exact Hsize].
      by apply subseteq_difference_l.
  - by rewrite self_sendKey_modifier.
Qed.

Lemma exec_sendKeys_cons code state calls (w : World UsbKeyboard) :
  exec (sendKeys ((code, state) :: calls)) w =
  exec (sendKeys calls) (exec (sendKey code state) w).
Proof. simpl. by rewrite exec_bind. Qed.

Lemma size_sendKeys (calls : list (Z * bool)) (w : World UsbKeyboard) :
  (size (mKeys (self w)) <= 5)%nat ->
  (size (mKeys (self (exec (sendKeys calls) w))) <= 5)%nat.
Proof.
  revert w. induction calls as [| [code state] calls IH]; intros w Hsize.
  - done.
  - rewrite exec_sendKeys_cons. by apply IH, size_sendKey.
Qed.

(** C2: whatever calls of [sendKey] a keyboard object has received since
    its construction, [mKeys] holds at most 5 usages. A further call with a
    code that is not a modifier: pressed, it adds the usage of the code when
    fewer than 5 are held and changes nothing when 5 are (the sixth key is
    dropped and no held key is replaced); released, it removes the usage,
    which changes nothing when the usage is not held. *)
Theorem pressedKeys_at_most_five
    (calls : list (Z * bool)) (code : Z) (state : bool)
    (modifiers0 : Z) (device : list UsbCall) :
  let before :=
    exec (sendKeys calls) (mkWorld (Keyboard.constructed modifiers0) device) in
  let keys := mKeys (self before) in
  let keys' := mKeys (self (exec (sendKey code state) before)) in
  (size keys <= 5)%nat /\
  (codeToModifier code = -1 ->
   (size keys' <= 5)%nat /\
   (state = true -> (size keys < 5)%nat -> keys' = {[keymapUsb code]} ∪ keys) /\
   (state = true -> size keys = 5%nat -> keys' = keys /\ size keys' = 5%nat) /\
   (state = false -> keys' = keys ∖ {[keymapUsb code]}) /\
   (state = false -> keymapUsb code ∉ keys -> keys' = keys)).
Proof.
  intros before keys keys'.
  assert (Hsize : (size keys <= 5)%nat).
  { apply size_sendKeys. cbn [self Keyboard.constructed mKeys].
    rewrite size_empty. lia. }
  split; [exact Hsize |]. intros Hmod.
  split; [by apply size_sendKey |].
  subst keys'. split; [| split; [| split]].
  - intros -> Hlt. rewrite self_sendKey_press by done.
    apply Nat.ltb_lt in Hlt. fold keys. by rewrite Hlt.
  - intros -> Hfull. rewrite self_sendKey_press by done.
    fold keys. by rewrite Hfull.
  - intros ->. by rewrite self_sendKey_release.
  - intros -> Hout. rewrite self_sendKey_release by done. simpl.
    apply difference_disjoint_L. by apply disjoint_singleton_r.
Qed.

(** C3, at the code that the claim's eighth modifier would have: 84 is
    not one of the cases of [codeToModifier], which are the seven codes 77
    to 83; [sendKey 84 _] therefore leaves [mModifiers] as it is and
    treats 84 as a regular key. *)
Theorem sendKey_84_not_a_modifier (state : bool) (w : World UsbKeyboard) :
  let after := exec (sendKey 84 state) w in
  codeToModifier 84 = -1 /\
  (forall code, codeToModifier code <> -1 -> 77 <= code <= 83) /\
  mModifiers (self after) = mModifiers (self w) /\
  mKeys (self after) =
    (if state then
       if (size (mKeys (self w)) <? 5)%nat
       then {[keymapUsb 84]} ∪ mKeys (self w) else mKeys (self w)
     else mKeys (self w) ∖ {[keymapUsb 84]}).
Proof.
  intros after. subst after.
  split; [done |]. split; [apply codeToModifier_cases |].
  destruct state.
  - rewrite self_sendKey_press by done. by destruct (_ <? _)%nat.
  - by rewrite self_sendKey_release.
Qed.

(** What [sendKey] does with a code that is one of the seven cases: the
    bits of its mask are set on a press and cleared on a release, every
    bit outside the mask keeps its value, and [mKeys] is not written. *)
Lemma sendKey_modifier_code (code : Z) (state : bool) (w : World UsbKeyboard) :
  codeToModifier code <> -1 ->
  let after := exec (sendKey code state) w in
  Z.land (mModifiers (self after)) (codeToModifier code) =
    (if state then codeToModifier code else 0) /\
  (forall i, 0 <= i -> Z.testbit (codeToModifier code) i = false ->
     Z.testbit (mModifiers (self after)) i = Z.testbit (mModifiers (self w)) i) /\
  mKeys (self after) = mKeys (self w).
Proof.
  intros Hmod after. subst after. rewrite self_sendKey_modifier by done.
  simpl. split; [apply set_or_clear_same |]. split; [| done].
  intros i Hi Hout. by apply set_or_clear_outside.
Qed.

(** A code that is none of the seven cases leaves [mModifiers]. *)
Lemma sendKey_regular_code (code : Z) (state : bool) (w : World UsbKeyboard) :
  codeToModifier code = -1 ->
  mModifiers (self (exec (sendKey code state) w)) = mModifiers (self w).
Proof.
  intros Hmod. destruct state.
  - rewrite self_sendKey_press by done. by destruct (_ <? _)%nat.
  - by rewrite self_sendKey_release.
Qed.

(** C4: [sendRaport] sends nine bytes: the report id, the modifiers, a
    zero, the first key slot, and five zeros; the slot holds zero when no
    key is held. With [mModifiers] the ALT mask and [mKeys] the one usage
    [usageA], the bytes are [reportId, ALT, 0, usageA, 0, 0, 0, 0, 0]. *)
Theorem sendRaport_wire_format (usageA : Z) (w : World UsbKeyboard) :
  0 <= REPORT_ID_KEYBOARD < 256 ->
  0 <= KEY_ALT < 256 ->
  0 <= usageA < 256 ->
  let sent := gKbMouse (exec sendRaport w) in
  (exists key0,
     sent =
       gKbMouse w ++
         [Send [REPORT_ID_KEYBOARD; to_u8 (mModifiers (self w)); 0;
                key0; 0; 0; 0; 0; 0]] /\
     (mKeys (self w) = ∅ -> key0 = 0)) /\
  (mModifiers (self w) = KEY_ALT -> mKeys (self w) = {[usageA]} ->
   sent =
     gKbMouse w ++
       [Send [REPORT_ID_KEYBOARD; KEY_ALT; 0; usageA; 0; 0; 0; 0; 0]]).
Proof.
  intros Hid Halt Husage sent. subst sent.
  rewrite exec_sendRaport, bytes_build_report. cbn [gKbMouse].
  rewrite (to_u8_small REPORT_ID_KEYBOARD) by done. split.
  - eexists. split; [reflexivity |].
    intros Hempty. rewrite Hempty. unfold cbegin.
    by rewrite (proj2 (set_begin_to_end_empty ∅)).
  - intros Hmods Hkeys. rewrite Hmods, Hkeys. unfold cbegin.
    rewrite set_begin_to_end_singleton. simpl.
    by rewrite !to_u8_small.
Qed.

(** C6, as the code has it: [mKeys] is a set ordered by value, and the key
    slot of the report (byte 3) holds the least usage held, as a byte. *)
Theorem report_key_slot_least (k : UsbKeyboard) :
  mKeys k <> ∅ ->
  exists least,
    least ∈ mKeys k /\
    (forall usage, usage ∈ mKeys k -> least <= usage) /\
    HID_REPORT.bytes (build_report k) !! 3%nat = Some (to_u8 least) /\
    (0 <= least < 256 -> HID_REPORT.bytes (build_report k) !! 3%nat = Some least).
Proof.
  intros Hne. destruct (cbegin_is_Some _ Hne) as [least Hleast].
  exists least. pose proof (proj1 (cbegin_least _ _) Hleast) as [Hin Hle].
  rewrite bytes_build_report, Hleast. simpl.
  repeat split; try done.
  intros Hbyte. by rewrite to_u8_small.
Qed.

(** C8: every call of [sendKey] makes exactly one call on the device, the
    sending of a nine-byte report that encodes the keyboard object as the
    call leaves it; so it is for a modifier code, for a regular code, for a
    press that finds five keys held and for a release of a key not held,
    the last two leaving the object as it was. *)
Theorem sendKey_sends_one_report (code : Z) (state : bool)
    (w : World UsbKeyboard) :
  let after := exec (sendKey code state) w in
  let bytes := HID_REPORT.bytes (build_report (self after)) in
  gKbMouse after = gKbMouse w ++ [Send bytes] /\
  length bytes = 9%nat /\
  (codeToModifier code = -1 ->
   (state = true /\ size (mKeys (self w)) = 5%nat) \/
   (state = false /\ keymapUsb code ∉ mKeys (self w)) ->
   self after = self w).
Proof.
  intros after bytes. subst after bytes.
  split; [apply gKbMouse_sendKey |].
  split; [by rewrite bytes_build_report |].
  intros Hmod [[-> Hfull] | [-> Hout]].
  - rewrite self_sendKey_press by done. by rewrite Hfull.
  - rewrite self_sendKey_release by done.
    rewrite difference_disjoint_L by (by apply disjoint_singleton_r).
    by destruct (self w).
Qed.

(** Whatever the key code table: with two regular keys pressed one after
    the other on a new keyboard object, the second of a smaller usage than
    the first, the key slot of the report holds the second. *)
Lemma second_press_takes_slot (first second : Z) (modifiers0 : Z)
    (device : list UsbCall) :
  codeToModifier first = -1 -> codeToModifier second = -1 ->
  keymapUsb second < keymapUsb first ->
  let w := exec (sendKeys [(first, true); (second, true)])
             (mkWorld (Keyboard.constructed modifiers0) device) in
  HID_REPORT.bytes (build_report (self w)) !! 3%nat =
    Some (to_u8 (keymapUsb second)).
Proof.
  intros Hfirst Hsecond Hlt w. subst w.
  rewrite !exec_sendKeys_cons. simpl (exec (sendKeys []) _).
  rewrite exec_ret, bytes_build_report.
  rewrite self_sendKey_press, self_sendKey_press by done.
  cbn [self Keyboard.constructed mKeys]. rewrite size_empty.
  cbn [Nat.ltb Nat.leb set_mKeys mKeys].
  rewrite (right_id_L (∅ : gset Z) (∪)), size_singleton.
  cbn [Nat.ltb Nat.leb set_mKeys mKeys].
  assert (Hleast : cbegin ({[keymapUsb second]} ∪ {[keymapUsb first]})
                   = Some (keymapUsb second)).
  { apply cbegin_least. split.
    - apply elem_of_union_l. by apply elem_of_singleton.
    - intros usage [->%elem_of_singleton | ->%elem_of_singleton]%elem_of_union;
        lia. }
  by rewrite Hleast.
Qed.

(** The insertion-ordered reading holds the same usages as [mKeys]: the
    two differ in order only. *)
Lemma press_order_step_sendKey (held : list Z) (code : Z) (state : bool)
    (w : World UsbKeyboard) :
  NoDup held -> mKeys (self w) = list_to_set held ->
  NoDup (press_order_step held (code, state)) /\
  mKeys (self (exec (sendKey code state) w)) =
    list_to_set (press_order_step held (code, state)).
Proof.
  intros Hnodup Hkeys.
  assert (Hsize : size (mKeys (self w)) = length held).
  { rewrite Hkeys. by apply size_list_to_set. }
  unfold Keyboard.press_order_step.
  destruct (Z.eqb_spec (codeToModifier code) (-1)) as [Hmod | Hmod]; simpl.
  - destruct state.
    + rewrite self_sendKey_press, Hsize by done.
      destruct (length held <? 5)%nat; simpl; [| done].
      destruct (bool_decide_reflect (keymapUsb code ∈ held)) as [Hin | Hout];
        simpl.
      * split; [done |]. rewrite Hkeys.
        apply (subseteq_union_1_L (C := gset Z)).
        by apply singleton_subseteq_l, elem_of_list_to_set.
      * split.
        -- apply NoDup_app. split; [done |]. split; [| apply NoDup_singleton].
           intros usage Hin ->%list_elem_of_singleton. done.
        -- rewrite Hkeys, list_to_set_app_L, list_to_set_singleton_L.
           apply (comm_L (∪)).
    + rewrite self_sendKey_release by done. simpl. split.
      * by apply NoDup_filter.
      * rewrite Hkeys. apply set_eq. intros usage.
        rewrite elem_of_difference, !elem_of_list_to_set, list_elem_of_filter,
          elem_of_singleton.
        tauto.
  - split; [done |]. by rewrite self_sendKey_modifier.
Qed.

Lemma insertion_ordered_keys_sendKeys (calls : list (Z * bool))
    (modifiers0 : Z) (device : list UsbCall) :
  let w := exec (sendKeys calls)
             (mkWorld (Keyboard.constructed modifiers0) device) in
  NoDup (insertion_ordered_keys calls) /\
  mKeys (self w) = list_to_set (insertion_ordered_keys calls).
Proof.
  unfold Keyboard.insertion_ordered_keys.
  assert (Hgen : forall held (w : World UsbKeyboard),
    NoDup held -> mKeys (self w) = list_to_set held ->
    NoDup (fold_left press_order_step calls held) /\
    mKeys (self (exec (sendKeys calls) w)) =
      list_to_set (fold_left press_order_step calls held)).
  { induction calls as [| [code state] calls IH]; intros held w Hnodup Hkeys.
    - done.
    - rewrite exec_sendKeys_cons. simpl fold_left.
      destruct (press_order_step_sendKey held code state w Hnodup Hkeys).
      by apply IH. }
  apply Hgen; [apply NoDup_nil_2 | done].
Qed.

End KeyboardFacts.

(** Five letter keys held, then a sixth pressed: the five stay. *)
Lemma pressedKeys_at_most_five_witness :
  let five := [(1, true); (2, true); (3, true); (4, true); (5, true)] in
  let before := exec (SampleKeyboard.sendKeys five) SampleKeyboard.start in
  let after := exec (SampleKeyboard.sendKeys [(6, true)]) before in
  size (mKeys (self before)) = 5%nat /\
  mKeys (self after) = mKeys (self before).
Proof.
  pose proof (pressedKeys_at_most_five
    Sample.KEY_CTRL Sample.KEY_SHIFT Sample.KEY_ALT Sample.KEY_LOGO
    Sample.KEY_RCTRL Sample.KEY_RSHIFT Sample.KEY_RALT
    Sample.REPORT_ID_KEYBOARD Sample.keymapUsb Sample.report0
    [(1, true); (2, true); (3, true); (4, true); (5, true)] 6 true 0 [])
    as [_ Hstep].
  destruct (Hstep eq_refl) as (_ & _ & Hfull & _).
  assert (Hfive : size (mKeys (self (exec
            (SampleKeyboard.sendKeys
               [(1, true); (2, true); (3, true); (4, true); (5, true)])
            SampleKeyboard.start))) = 5%nat) by (vm_compute; reflexivity).
  split; [exact Hfive |].
  exact (proj1 (Hfull eq_refl Hfive)).
Defined.

Lemma sendRaport_wire_format_witness :
  gKbMouse
    (exec (Keyboard.sendRaport Sample.REPORT_ID_KEYBOARD Sample.report0)
       (mkWorld (mkUsbKeyboard Sample.KEY_ALT {[4]}) [])) =
  [Send [Sample.REPORT_ID_KEYBOARD; Sample.KEY_ALT; 0; 4; 0; 0; 0; 0; 0]].
Proof.
  refine (proj2 (sendRaport_wire_format Sample.KEY_ALT
    Sample.REPORT_ID_KEYBOARD Sample.report0 4
    (mkWorld (mkUsbKeyboard Sample.KEY_ALT {[4]}) []) _ _ _) eq_refl eq_refl);
    vm_compute; split; congruence.
Defined.

Lemma report_key_slot_least_witness :
  exists least,
    least ∈ mKeys SampleKeyboard.two_keys /\
    (forall usage, usage ∈ mKeys SampleKeyboard.two_keys -> least <= usage) /\
    HID_REPORT.bytes
      (Keyboard.build_report Sample.REPORT_ID_KEYBOARD Sample.report0
         SampleKeyboard.two_keys) !! 3%nat = Some (to_u8 least) /\
    (0 <= least < 256 ->
     HID_REPORT.bytes
       (Keyboard.build_report Sample.REPORT_ID_KEYBOARD Sample.report0
          SampleKeyboard.two_keys) !! 3%nat = Some least).
Proof.
  apply (report_key_slot_least Sample.REPORT_ID_KEYBOARD Sample.report0
           SampleKeyboard.two_keys).
  intros Hempty. apply (f_equal size) in Hempty.
  vm_compute in Hempty. discriminate.
Defined.

(** C6, refuted as stated: KeyB (usage 5) is pressed, then KeyA (usage 4),
    and both are held. The key pressed first is KeyB, yet byte 3 of the
    report that the second call sends is 4. *)
Lemma report_key_slot_not_oldest :
  let calls := [(2, true); (1, true)] in
  let w := exec (SampleKeyboard.sendKeys calls) SampleKeyboard.start in
  mKeys (self w) = list_to_set (SampleKeyboard.insertion_ordered_keys calls) /\
  head (SampleKeyboard.insertion_ordered_keys calls) = Some 5 /\
  last (gKbMouse w) = Some (Send [1; 0; 0; 4; 0; 0; 0; 0; 0]) /\
  HID_REPORT.bytes (SampleKeyboard.build_report (self w)) !! 3%nat = Some 4.
Proof.
  vm_compute. done.
Qed.

(** C5: [clear] of the keyboard empties [mKeys] and leaves [mModifiers]
    as it was. *)
Theorem keyboard_clear_keeps_modifiers (w : World UsbKeyboard) :
  mKeys (self (exec Keyboard.clear w)) = ∅ /\
  mModifiers (self (exec Keyboard.clear w)) = mModifiers (self w).
Proof. done. Qed.

(** C9: neither [clear] makes a call on the device. *)
Theorem clear_sends_nothing (wk : World UsbKeyboard) (wm : World UsbMouse) :
  gKbMouse (exec Keyboard.clear wk) = gKbMouse wk /\
  gKbMouse (exec Mouse.clear wm) = gKbMouse wm.
Proof. done. Qed.

(** * Further properties *)

(** ** The mouse driver: composition and sequences *)

Lemma testbit_set_or_clear (b : bool) (mask v i : Z) :
  0 <= i ->
  Z.testbit (set_or_clear b mask v) i =
    if b then Z.testbit v i || Z.testbit mask i
    else Z.testbit v i && negb (Z.testbit mask i).
Proof.
  intros Hi. destruct b; simpl.
  - apply Z.lor_spec.
  - by rewrite Z.land_spec, Z.lnot_spec.
Qed.

Section MouseSequences.
Variables MOUSE_LEFT MOUSE_RIGHT MOUSE_MIDDLE : Z.

#[local] Abbreviation sendButtons :=
  (Mouse.sendButtons MOUSE_LEFT MOUSE_RIGHT MOUSE_MIDDLE).
#[local] Abbreviation call := (Mouse.call MOUSE_LEFT MOUSE_RIGHT MOUSE_MIDDLE).
#[local] Abbreviation calls :=
  (Mouse.calls MOUSE_LEFT MOUSE_RIGHT MOUSE_MIDDLE).

(** The mask [sendButtons] computes from the old one. *)
Lemma mButtons_sendButtons ls lt rs rt ms mt us ut ds dt (w : World UsbMouse) :
  mButtons (self (exec (sendButtons ls lt rs rt ms mt us ut ds dt) w)) =
  set_or_clear mt MOUSE_MIDDLE
    (set_or_clear rs MOUSE_RIGHT
       (set_or_clear lt MOUSE_LEFT (mButtons (self w)))).
Proof. by rewrite exec_sendButtons. Qed.

(** Repeating a [sendButtons] call changes nothing more: the object is as
    the first call left it and the device gets the same update again. No
    assumption on the three masks is needed. *)
Theorem sendButtons_idempotent ls lt rs rt ms mt us ut ds dt
    (w : World UsbMouse) :
  let once := exec (sendButtons ls lt rs rt ms mt us ut ds dt) w in
  let twice := exec (sendButtons ls lt rs rt ms mt us ut ds dt) once in
  self twice = self once /\
  exists update, gKbMouse once = gKbMouse w ++ [update] /\
                 gKbMouse twice = gKbMouse w ++ [update; update].
Proof.
  intros once twice. subst once twice. rewrite !exec_sendButtons.
  cbn [self gKbMouse mPositionX mPositionY mScroll mButtons].
  set (v := mButtons (self w)).
  set (v1 := set_or_clear mt MOUSE_MIDDLE
               (set_or_clear rs MOUSE_RIGHT (set_or_clear lt MOUSE_LEFT v))).
  assert (Hagain : set_or_clear mt MOUSE_MIDDLE
            (set_or_clear rs MOUSE_RIGHT (set_or_clear lt MOUSE_LEFT v1)) = v1).
  { subst v1. apply Z.bits_inj'. intros i Hi.
    rewrite !testbit_set_or_clear by exact Hi.
    destruct lt, rs, mt, (Z.testbit v i), (Z.testbit MOUSE_LEFT i),
      (Z.testbit MOUSE_RIGHT i), (Z.testbit MOUSE_MIDDLE i); reflexivity. }
  rewrite Hagain. split; [done |].
  eexists. split; [reflexivity |]. by rewrite <- app_assoc.
Qed.

(** The RIGHT bit follows [rightSelect]: [rightState] is not read, and
    neither are the arguments for the up and down buttons nor the select
    arguments of left and middle. *)
Theorem sendButtons_right_by_select ls lt rs rt ms mt us ut ds dt
    ls' rt' ms' us' ut' ds' dt' (w : World UsbMouse) :
  disjoint_bits MOUSE_RIGHT MOUSE_MIDDLE ->
  let after := exec (sendButtons ls lt rs rt ms mt us ut ds dt) w in
  Z.land (mButtons (self after)) MOUSE_RIGHT =
    (if rs then MOUSE_RIGHT else 0) /\
  exec (sendButtons ls' lt rs rt' ms' mt us' ut' ds' dt') w = after.
Proof.
  intros HRM after. subst after. rewrite !exec_sendButtons.
  cbn [self mButtons]. split; [| done].
  rewrite set_or_clear_other by assumption. apply set_or_clear_same.
Qed.

(** After [clear], the next update starts from zero: a move sends its
    position with no button and no scroll, a wheel event sends its scroll
    at position (0, 0), and a report of no button pressed sends four
    zeros. *)
Theorem clear_then_send (x y z : Z) ls rt ms us ut ds dt
    (w : World UsbMouse) :
  self (exec Mouse.clear w) = mkUsbMouse 0 0 0 0 /\
  gKbMouse (exec (Mouse.clear ;; Mouse.sendMove x y) w) =
    gKbMouse w ++ [Update x y 0 0] /\
  gKbMouse (exec (Mouse.clear ;; Mouse.sendWheel z) w) =
    gKbMouse w ++ [Update 0 0 0 z] /\
  gKbMouse (exec (Mouse.clear ;; sendButtons ls false false rt ms false
                                   us ut ds dt) w) =
    gKbMouse w ++ [Update 0 0 0 0].
Proof.
  split; [done |]. split; [done |]. split; [done |].
  rewrite exec_bind, exec_sendButtons. by cbn.
Qed.

Lemma exec_calls_cons (c : Mouse.Call) (cs : list Mouse.Call)
    (w : World UsbMouse) :
  exec (calls (c :: cs)) w = exec (calls cs) (exec (call c) w).
Proof. simpl. by rewrite exec_bind. Qed.

(** One operation: it appends at most one call to those on the device,
    one exactly when its body reaches the device, and an [update] call
    carries the fields of the object as the operation leaves it. *)
Lemma call_step (c : Mouse.Call) (w : World UsbMouse) :
  let after := exec (call c) w in
  exists emitted,
    gKbMouse after = gKbMouse w ++ emitted /\
    length emitted = (if Mouse.reaches_device c then 1 else 0)%nat /\
    (forall x y b z, Update x y b z ∈ emitted ->
       x = mPositionX (self after) /\ y = mPositionY (self after) /\
       b = mButtons (self after) /\ z = mScroll (self after)).
Proof.
  assert (Hone : forall x y b z u, Update x y b z ∈ [u] -> u = Update x y b z).
  { intros x y b z u Hin. by apply list_elem_of_singleton in Hin. }
  destruct c; simpl.
  - exists []. rewrite app_nil_r. split; [done |]. split; [done |].
    intros x y b z Hin. by apply elem_of_nil in Hin.
  - exists []. rewrite app_nil_r. split; [done |]. split; [done |].
    intros x y b z Hin. by apply elem_of_nil in Hin.
  - rewrite exec_sendButtons. eexists. split; [reflexivity |].
    split; [done |]. intros x y b z Hin. apply Hone in Hin.
    by injection Hin as <- <- <- <-.
  - eexists. split; [reflexivity |]. split; [done |].
    intros x' y' b z Hin. apply Hone in Hin. discriminate.
  - eexists. split; [reflexivity |]. split; [done |].
    intros x' y' b z Hin. apply Hone in Hin. by injection Hin as <- <- <- <-.
  - eexists. split; [reflexivity |]. split; [done |].
    intros x' y' b z' Hin. apply Hone in Hin. by injection Hin as <- <- <- <-.
  - exists []. rewrite app_nil_r. split; [done |]. split; [done |].
    intros x y b z Hin. by apply elem_of_nil in Hin.
Qed.

Lemma mScroll_call (c : Mouse.Call) (w : World UsbMouse) :
  Mouse.assigns_mScroll c = false ->
  mScroll (self (exec (call c) w)) = mScroll (self w).
Proof. destruct c; try done. intros _. simpl. by rewrite exec_sendButtons. Qed.

Lemma mButtons_call (c : Mouse.Call) (w : World UsbMouse) :
  Mouse.assigns_mButtons c = false ->
  mButtons (self (exec (call c) w)) = mButtons (self w).
Proof. by destruct c. Qed.

(** Every operation that reaches the device makes one call on it, at
    once: after any sequence of operations the device has received as many
    new calls as the sequence has [send...] operations, after those it had
    received before. *)
Theorem calls_one_device_call_each (cs : list Mouse.Call)
    (w : World UsbMouse) :
  exists emitted,
    gKbMouse (exec (calls cs) w) = gKbMouse w ++ emitted /\
    length emitted = length (List.filter Mouse.reaches_device cs).
Proof.
  revert w. induction cs as [| c cs IH]; intros w.
  - exists []. by rewrite app_nil_r.
  - rewrite exec_calls_cons.
    destruct (call_step c w) as (first & Hfirst & Hlen & _).
    destruct (IH (exec (call c) w)) as (rest & Hrest & Hlen').
    exists (first ++ rest). rewrite Hrest, Hfirst, <- app_assoc.
    split; [done |]. rewrite length_app, Hlen, Hlen'. simpl.
    by destruct (Mouse.reaches_device c).
Qed.

(** The scroll value is sent again with every update until it is
    rewritten: through any sequence of operations other than [sendWheel]
    and [clear], [mScroll] keeps its value, and every [update] call the
    sequence makes carries that value. *)
Theorem scroll_repeated (cs : list Mouse.Call) (w : World UsbMouse) :
  Forall (fun c => Mouse.assigns_mScroll c = false) cs ->
  let after := exec (calls cs) w in
  mScroll (self after) = mScroll (self w) /\
  exists emitted,
    gKbMouse after = gKbMouse w ++ emitted /\
    forall x y b z, Update x y b z ∈ emitted -> z = mScroll (self w).
Proof.
  intros Hcs. revert w. induction Hcs as [| c cs Hc _ IH]; intros w after.
  - split; [done |]. exists []. rewrite app_nil_r. split; [done |].
    intros x y b z Hin. by apply elem_of_nil in Hin.
  - subst after. rewrite exec_calls_cons.
    destruct (call_step c w) as (first & Hfirst & _ & Hupd).
    destruct (IH (exec (call c) w)) as (Hscroll & rest & Hrest & Hupd').
    rewrite (mScroll_call c w Hc) in *.
    split; [exact Hscroll |].
    exists (first ++ rest). rewrite Hrest, Hfirst, <- app_assoc.
    split; [done |]. intros x y b z [Hin | Hin]%elem_of_app.
    + by destruct (Hupd _ _ _ _ Hin) as (_ & _ & _ & ->).
    + by apply (Hupd' x y b z).
Qed.

(** A pressed button stays pressed while the pointer moves: through any
    sequence of operations other than [sendButtons] and [clear],
    [mButtons] keeps its value, and every [update] call the sequence
    makes carries that mask. *)
Theorem buttons_held (cs : list Mouse.Call) (w : World UsbMouse) :
  Forall (fun c => Mouse.assigns_mButtons c = false) cs ->
  let after := exec (calls cs) w in
  mButtons (self after) = mButtons (self w) /\
  exists emitted,
    gKbMouse after = gKbMouse w ++ emitted /\
    forall x y b z, Update x y b z ∈ emitted -> b = mButtons (self w).
Proof.
  intros Hcs. revert w. induction Hcs as [| c cs Hc _ IH]; intros w after.
  - split; [done |]. exists []. rewrite app_nil_r. split; [done |].
    intros x y b z Hin. by apply elem_of_nil in Hin.
  - subst after. rewrite exec_calls_cons.
    destruct (call_step c w) as (first & Hfirst & _ & Hupd).
    destruct (IH (exec (call c) w)) as (Hbuttons & rest & Hrest & Hupd').
    rewrite (mButtons_call c w Hc) in *.
    split; [exact Hbuttons |].
    exists (first ++ rest). rewrite Hrest, Hfirst, <- app_assoc.
    split; [done |]. intros x y b z [Hin | Hin]%elem_of_app.
    + by destruct (Hupd _ _ _ _ Hin) as (_ & _ & -> & _).
    + by apply (Hupd' x y b z).
Qed.

End MouseSequences.

Lemma sendButtons_right_by_select_witness :
  let after :=
    exec (Mouse.sendButtons Sample.MOUSE_LEFT Sample.MOUSE_RIGHT
            Sample.MOUSE_MIDDLE false false true false false false false
            false false false) (mkWorld Sample.mouse0 []) in
  Z.land (mButtons (self after)) Sample.MOUSE_RIGHT = Sample.MOUSE_RIGHT.
Proof.
  exact (proj1 (sendButtons_right_by_select
    Sample.MOUSE_LEFT Sample.MOUSE_RIGHT Sample.MOUSE_MIDDLE
    false false true false false false false false false false
    false false false false false false false
    (mkWorld Sample.mouse0 []) eq_refl)).
Defined.

Lemma scroll_repeated_witness :
  let calls :=
    Mouse.calls Sample.MOUSE_LEFT Sample.MOUSE_RIGHT Sample.MOUSE_MIDDLE in
  let w := exec (Mouse.sendWheel 3) (mkWorld Sample.mouse0 []) in
  mScroll (self (exec (calls [Mouse.CallSendMove 10 20;
                              Mouse.CallSendRelative 1 1]) w)) = 3.
Proof.
  refine (proj1 (scroll_repeated
    Sample.MOUSE_LEFT Sample.MOUSE_RIGHT Sample.MOUSE_MIDDLE
    [Mouse.CallSendMove 10 20; Mouse.CallSendRelative 1 1]
    (exec (Mouse.sendWheel 3) (mkWorld Sample.mouse0 [])) _)).
  repeat constructor.
Defined.

Lemma buttons_held_witness :
  let calls :=
    Mouse.calls Sample.MOUSE_LEFT Sample.MOUSE_RIGHT Sample.MOUSE_MIDDLE in
  let w := mkWorld (mkUsbMouse 0 0 0 Sample.MOUSE_LEFT) [] in
  mButtons (self (exec (calls [Mouse.CallSendMove 10 20;
                               Mouse.CallSendWheel 1]) w)) =
    Sample.MOUSE_LEFT.
Proof.
  refine (proj1 (buttons_held
    Sample.MOUSE_LEFT Sample.MOUSE_RIGHT Sample.MOUSE_MIDDLE
    [Mouse.CallSendMove 10 20; Mouse.CallSendWheel 1]
    (mkWorld (mkUsbMouse 0 0 0 Sample.MOUSE_LEFT) []) _)).
  repeat constructor.
Defined.

(** ** The keyboard driver: composition and sequences *)

Lemma to_u8_range (v : Z) : 0 <= to_u8 v < 256.
Proof. unfold to_u8. by apply Z.mod_pos_bound. Qed.

(** The least element does not change when a usage that is not below it
    is added. *)
Lemma cbegin_union_above (keys : gset Z) (usage key : Z) :
  usage ∈ keys -> usage <= key -> cbegin ({[key]} ∪ keys) = cbegin keys.
Proof.
  intros Hin Hle.
  destruct (cbegin_is_Some keys) as [least Hleast].
  { intros ->. by apply not_elem_of_empty in Hin. }
  rewrite Hleast. apply cbegin_least.
  apply cbegin_least in Hleast as [Hleast_in Hleast_le].
  split; [by apply elem_of_union_r |].
  intros x [->%elem_of_singleton | Hx]%elem_of_union.
  - specialize (Hleast_le _ Hin). lia.
  - by apply Hleast_le.
Qed.

Section KeyboardSequences.
Variables KEY_CTRL KEY_SHIFT KEY_ALT KEY_LOGO : Z.
Variables KEY_RCTRL KEY_RSHIFT KEY_RALT : Z.
Variable REPORT_ID_KEYBOARD : Z.
Variable keymapUsb : Z -> Z.
Variable report0 : HID_REPORT.t.

#[local] Abbreviation codeToModifier :=
  (Keyboard.codeToModifier KEY_CTRL KEY_SHIFT KEY_ALT KEY_LOGO
     KEY_RCTRL KEY_RSHIFT KEY_RALT).
#[local] Abbreviation modifier_bits :=
  (Keyboard.modifier_bits KEY_CTRL KEY_SHIFT KEY_ALT KEY_LOGO
     KEY_RCTRL KEY_RSHIFT KEY_RALT).
#[local] Abbreviation build_report :=
  (Keyboard.build_report REPORT_ID_KEYBOARD report0).
#[local] Abbreviation sendKey :=
  (Keyboard.sendKey KEY_CTRL KEY_SHIFT KEY_ALT KEY_LOGO
     KEY_RCTRL KEY_RSHIFT KEY_RALT REPORT_ID_KEYBOARD keymapUsb report0).
#[local] Abbreviation sendKeys :=
  (Keyboard.sendKeys KEY_CTRL KEY_SHIFT KEY_ALT KEY_LOGO
     KEY_RCTRL KEY_RSHIFT KEY_RALT REPORT_ID_KEYBOARD keymapUsb report0).
#[local] Abbreviation call :=
  (Keyboard.call KEY_CTRL KEY_SHIFT KEY_ALT KEY_LOGO
     KEY_RCTRL KEY_RSHIFT KEY_RALT REPORT_ID_KEYBOARD keymapUsb report0).
#[local] Abbreviation calls :=
  (Keyboard.calls KEY_CTRL KEY_SHIFT KEY_ALT KEY_LOGO
     KEY_RCTRL KEY_RSHIFT KEY_RALT REPORT_ID_KEYBOARD keymapUsb report0).

(** The report does not show what the report variable held before it was
    written: the nine bytes sent are the same whatever that was, and each
    of them is a byte. *)
Theorem report_bytes_initialised (report0' : HID_REPORT.t) (k : UsbKeyboard) :
  let bytes := HID_REPORT.bytes (build_report k) in
  bytes =
    HID_REPORT.bytes (Keyboard.build_report REPORT_ID_KEYBOARD report0' k) /\
  length bytes = 9%nat /\
  Forall (fun byte => 0 <= byte < 256) bytes.
Proof.
  intros bytes. subst bytes. rewrite !bytes_build_report.
  split; [done |]. split; [done |].
  pose proof (to_u8_range REPORT_ID_KEYBOARD) as Hid.
  pose proof (to_u8_range (mModifiers k)) as Hmods.
  assert (Hkey : 0 <= from_option to_u8 0 (cbegin (mKeys k)) < 256).
  { destruct (cbegin (mKeys k)); simpl; [apply to_u8_range | lia]. }
  repeat (apply Forall_cons_2; [first [assumption | lia] |]).
  apply Forall_nil_2.
Qed.

(** Two calls in a row: the second starts from what the first left. *)
Lemma exec_then {A B} (m : Drv UsbKeyboard A) (k : Drv UsbKeyboard B)
    (w : World UsbKeyboard) :
  exec (m ;; k) w = exec k (exec m w).
Proof. by rewrite exec_bind. Qed.

(** Pressing and then releasing a modifier leaves its mask cleared, also
    when it was set before the press; every other bit of [mModifiers] and
    the held keys are as before. When the mask was clear before, the
    object is back to what it was. *)
Theorem modifier_press_release (code : Z) (w : World UsbKeyboard) :
  codeToModifier code <> -1 ->
  let after := exec (sendKey code true ;; sendKey code false) w in
  mModifiers (self after) =
    Z.land (mModifiers (self w)) (Z.lnot (codeToModifier code)) /\
  mKeys (self after) = mKeys (self w) /\
  (Z.land (mModifiers (self w)) (codeToModifier code) = 0 ->
   self after = self w).
Proof.
  intros Hmod after. subst after. rewrite exec_then.
  rewrite !self_sendKey_modifier by done.
  cbn [set_mModifiers mModifiers mKeys set_or_clear].
  set (v := mModifiers (self w)). set (mask := codeToModifier code).
  assert (Hclear : Z.land (Z.lor v mask) (Z.lnot mask) = Z.land v (Z.lnot mask)).
  { apply Z.bits_inj'. intros i Hi.
    rewrite !Z.land_spec, Z.lor_spec, Z.lnot_spec by exact Hi.
    by destruct (Z.testbit v i), (Z.testbit mask i). }
  rewrite Hclear. split; [done |]. split; [done |].
  intros Hunset.
  assert (Hsame : Z.land v (Z.lnot mask) = v).
  { apply Z.bits_inj'. intros i Hi.
    assert (Hbit : Z.testbit (Z.land v mask) i = false)
      by (rewrite Hunset; apply Z.bits_0).
    rewrite Z.land_spec in Hbit.
    rewrite Z.land_spec, Z.lnot_spec by exact Hi.
    by destruct (Z.testbit v i), (Z.testbit mask i). }
  rewrite Hsame. subst v. by destruct (self w).
Qed.

(** Pressing and then releasing a regular key whose usage was not held,
    with room for it, brings the object back to what it was; the device
    has received two reports, the second the one of the object before the
    press. *)
Theorem key_press_release (code : Z) (w : World UsbKeyboard) :
  codeToModifier code = -1 ->
  keymapUsb code ∉ mKeys (self w) ->
  (size (mKeys (self w)) < 5)%nat ->
  let pressed := exec (sendKey code true) w in
  let after := exec (sendKey code false) pressed in
  keymapUsb code ∈ mKeys (self pressed) /\
  self after = self w /\
  gKbMouse after =
    gKbMouse w ++
      [Send (HID_REPORT.bytes (build_report (self pressed)));
       Send (HID_REPORT.bytes (build_report (self w)))].
Proof.
  intros Hmod Hout Hroom pressed after.
  assert (Hpressed : self pressed =
            set_mKeys ({[keymapUsb code]} ∪ mKeys (self w)) (self w)).
  { subst pressed. rewrite self_sendKey_press by done.
    apply Nat.ltb_lt in Hroom. by rewrite Hroom. }
  assert (Hafter : self after = self w).
  { subst after. rewrite self_sendKey_release, Hpressed by done.
    cbn [set_mKeys mKeys mModifiers].
    assert (Hback : ({[keymapUsb code]} ∪ mKeys (self w)) ∖ {[keymapUsb code]}
                    = mKeys (self w)).
    { apply set_eq. intros x.
      rewrite elem_of_difference, elem_of_union, !elem_of_singleton.
      split; [tauto |]. intros Hx. split; [by right |]. by intros ->. }
    rewrite Hback. by destruct (self w). }
  split.
  - rewrite Hpressed. cbn [set_mKeys mKeys].
    apply elem_of_union_l. by apply elem_of_singleton.
  - split; [exact Hafter |].
    assert (Hsecond : gKbMouse after =
              gKbMouse pressed ++
                [Send (HID_REPORT.bytes (build_report (self after)))])
      by apply gKbMouse_sendKey.
    assert (Hfirst : gKbMouse pressed =
              gKbMouse w ++
                [Send (HID_REPORT.bytes (build_report (self pressed)))])
      by apply gKbMouse_sendKey.
    by rewrite Hsecond, Hfirst, Hafter, <- app_assoc.
Qed.

(** Keys are held by usage, without a count: when two codes have the same
    usage (or one key is pressed twice), one release after both presses
    leaves the usage not held. *)
Theorem release_drops_shared_usage (a b : Z) (w : World UsbKeyboard) :
  codeToModifier a = -1 ->
  codeToModifier b = -1 ->
  keymapUsb a = keymapUsb b ->
  let after := exec (sendKeys [(a, true); (b, true); (a, false)]) w in
  keymapUsb b ∉ mKeys (self after).
Proof.
  intros Ha Hb Hsame after. subst after.
  rewrite !exec_sendKeys_cons. simpl (exec (sendKeys []) _). rewrite exec_ret.
  rewrite self_sendKey_release by done. cbn [set_mKeys mKeys].
  rewrite Hsame. intros [_ Hnot]%elem_of_difference.
  apply Hnot. by apply elem_of_singleton.
Qed.

(** A key pressed while a key of a usage not above its own is held does
    not show: the report sent is the one of the object before the press. *)
Theorem press_above_held_not_reported (code usage : Z)
    (w : World UsbKeyboard) :
  codeToModifier code = -1 ->
  usage ∈ mKeys (self w) ->
  usage <= keymapUsb code ->
  gKbMouse (exec (sendKey code true) w) =
    gKbMouse w ++ [Send (HID_REPORT.bytes (build_report (self w)))].
Proof.
  intros Hmod Hheld Hle. rewrite gKbMouse_sendKey. do 3 f_equal.
  rewrite !bytes_build_report, self_sendKey_press by done.
  destruct (_ <? _)%nat; [| done].
  cbn [set_mKeys mKeys mModifiers].
  by rewrite (cbegin_union_above _ usage).
Qed.

(** An event on a modifier and an event on a regular key leave the same
    object in either order. *)
Theorem modifier_and_key_commute (modifier key : Z) (mstate kstate : bool)
    (w : World UsbKeyboard) :
  codeToModifier modifier <> -1 ->
  codeToModifier key = -1 ->
  self (exec (sendKey modifier mstate ;; sendKey key kstate) w) =
  self (exec (sendKey key kstate ;; sendKey modifier mstate) w).
Proof.
  intros Hmod Hkey. rewrite !exec_then. destruct kstate.
  - rewrite self_sendKey_press, !self_sendKey_modifier by done.
    rewrite self_sendKey_press by done.
    cbn [set_mModifiers mKeys]. by destruct (_ <? _)%nat.
  - rewrite self_sendKey_release, !self_sendKey_modifier by done.
    by rewrite self_sendKey_release by done.
Qed.

(** After [clear], which sends nothing, the next event on a regular key
    sends a report that still carries the modifiers as they were, with
    the key slot empty on a release and holding the key on a press. *)
Theorem clear_then_key_report (code : Z) (state : bool)
    (w : World UsbKeyboard) :
  codeToModifier code = -1 ->
  gKbMouse (exec (Keyboard.clear ;; sendKey code state) w) =
    gKbMouse w ++
      [Send [to_u8 REPORT_ID_KEYBOARD; to_u8 (mModifiers (self w)); 0;
             (if state then to_u8 (keymapUsb code) else 0); 0; 0; 0; 0; 0]].
Proof.
  intros Hmod. rewrite exec_then, gKbMouse_sendKey, bytes_build_report.
  destruct state.
  - rewrite self_sendKey_press by done.
    cbn [self exec Keyboard.clear assign snd set_mKeys mKeys gKbMouse].
    rewrite size_empty. cbn [Nat.ltb Nat.leb set_mKeys mKeys mModifiers].
    rewrite (right_id_L (∅ : gset Z) (∪)). unfold cbegin.
    by rewrite set_begin_to_end_singleton.
  - rewrite self_sendKey_release by done.
    cbn [self exec Keyboard.clear assign snd set_mKeys mKeys gKbMouse
         mModifiers].
    assert (Hempty : (∅ : gset Z) ∖ {[keymapUsb code]} = ∅).
    { apply set_eq. intros x. rewrite elem_of_difference.
      split; [tauto |]. intros Hx. by apply not_elem_of_empty in Hx. }
    rewrite Hempty. unfold cbegin.
    by rewrite (proj2 (set_begin_to_end_empty ∅)).
Qed.

Lemma codeToModifier_within_modifier_bits (code i : Z) :
  codeToModifier code <> -1 ->
  Z.testbit modifier_bits i = false ->
  Z.testbit (codeToModifier code) i = false.
Proof.
  intros Hmod Hout.
  pose proof (codeToModifier_cases _ _ _ _ _ _ _ _ Hmod) as Hcode.
  unfold Keyboard.modifier_bits in Hout. rewrite !Z.lor_spec in Hout.
  repeat (apply orb_false_elim in Hout as [? Hout]).
  assert (Hcases : code = 77 \/ code = 78 \/ code = 79 \/ code = 80 \/
                   code = 81 \/ code = 82 \/ code = 83) by lia.
  destruct Hcases as [-> | [-> | [-> | [-> | [-> | [-> | ->]]]]]];
    simpl; assumption.
Qed.

Lemma exec_kcalls_cons (c : Keyboard.Call) (cs : list Keyboard.Call)
    (w : World UsbKeyboard) :
  exec (calls (c :: cs)) w = exec (calls cs) (exec (call c) w).
Proof. simpl. by rewrite exec_bind. Qed.

(** No operation of the keyboard, [clear] included, writes a bit of
    [mModifiers] outside the seven masks: through any sequence of
    operations such a bit keeps the value it had, which for a new object
    is whatever the uninitialised field held. *)
Theorem other_modifier_bits_kept (cs : list Keyboard.Call) (i : Z)
    (w : World UsbKeyboard) :
  0 <= i ->
  Z.testbit modifier_bits i = false ->
  Z.testbit (mModifiers (self (exec (calls cs) w))) i =
    Z.testbit (mModifiers (self w)) i.
Proof.
  intros Hi Hout. revert w. induction cs as [| c cs IH]; intros w.
  - done.
  - rewrite exec_kcalls_cons, IH. destruct c as [| | code state |]; try done.
    simpl.
    destruct (decide (codeToModifier code = -1)) as [Hmod | Hmod].
    + by rewrite sendKey_regular_code.
    + rewrite self_sendKey_modifier by done. cbn [set_mModifiers mModifiers].
      apply set_or_clear_outside; [done |].
      by apply codeToModifier_within_modifier_bits.
Qed.

(** Every [sendKey] sends one report at once and no other operation
    sends any: after any sequence of operations the device has received,
    after the calls it had received before, as many nine-byte reports as
    the sequence has [sendKey] calls, and nothing else. *)
Theorem calls_one_report_each (cs : list Keyboard.Call)
    (w : World UsbKeyboard) :
  exists reports,
    gKbMouse (exec (calls cs) w) = gKbMouse w ++ map Send reports /\
    length reports = length (List.filter Keyboard.reaches_device cs) /\
    Forall (fun report => length report = 9%nat) reports.
Proof.
  revert w. induction cs as [| c cs IH]; intros w.
  - exists []. simpl. by rewrite app_nil_r.
  - rewrite exec_kcalls_cons.
    destruct (IH (exec (call c) w)) as (rest & Hrest & Hlen & Hnine).
    destruct c as [| | code state |].
    + by exists rest.
    + by exists rest.
    + eexists (_ :: rest). simpl in *. rewrite Hrest, gKbMouse_sendKey.
      rewrite <- app_assoc. split; [reflexivity |]. split; [by rewrite Hlen |].
      apply Forall_cons_2; [| done]. by rewrite bytes_build_report.
    + by exists rest.
Qed.

End KeyboardSequences.

(** ** The factory *)

Section FactoryFacts.
Variables DUMMY USB_MOUSE_ABSOLUTE USB_MOUSE_RELATIVE : Z.


End FactoryFacts.

(** ** The further properties at the sample values *)

Lemma modifier_press_release_witness :
  let sendKey :=
    Keyboard.sendKey Sample.KEY_CTRL Sample.KEY_SHIFT Sample.KEY_ALT Sample.KEY_LOGO
    Sample.KEY_RCTRL Sample.KEY_RSHIFT Sample.KEY_RALT
    Sample.REPORT_ID_KEYBOARD Sample.keymapUsb Sample.report0 in
  self (exec (sendKey 79 true ;; sendKey 79 false) SampleKeyboard.start) =
    self SampleKeyboard.start.
Proof.
  refine (proj2 (proj2 (modifier_press_release
    Sample.KEY_CTRL Sample.KEY_SHIFT Sample.KEY_ALT Sample.KEY_LOGO
    Sample.KEY_RCTRL Sample.KEY_RSHIFT Sample.KEY_RALT
    Sample.REPORT_ID_KEYBOARD Sample.keymapUsb Sample.report0 79 SampleKeyboard.start _)) eq_refl).
  vm_compute. discriminate.
Defined.

Lemma key_press_release_witness :
  let sendKey :=
    Keyboard.sendKey Sample.KEY_CTRL Sample.KEY_SHIFT Sample.KEY_ALT Sample.KEY_LOGO
    Sample.KEY_RCTRL Sample.KEY_RSHIFT Sample.KEY_RALT
    Sample.REPORT_ID_KEYBOARD Sample.keymapUsb Sample.report0 in
  self (exec (sendKey 1 false) (exec (sendKey 1 true) SampleKeyboard.start)) =
    self SampleKeyboard.start.
Proof.
  refine (proj1 (proj2 (key_press_release
    Sample.KEY_CTRL Sample.KEY_SHIFT Sample.KEY_ALT Sample.KEY_LOGO
    Sample.KEY_RCTRL Sample.KEY_RSHIFT Sample.KEY_RALT
    Sample.REPORT_ID_KEYBOARD Sample.keymapUsb Sample.report0 1 SampleKeyboard.start eq_refl _ _))).
  - apply not_elem_of_empty.
  - vm_compute. lia.
Defined.

Lemma release_drops_shared_usage_witness :
  let sendKeys :=
    Keyboard.sendKeys Sample.KEY_CTRL Sample.KEY_SHIFT Sample.KEY_ALT Sample.KEY_LOGO
    Sample.KEY_RCTRL Sample.KEY_RSHIFT Sample.KEY_RALT
    Sample.REPORT_ID_KEYBOARD Sample.keymapUsb Sample.report0 in
  Sample.keymapUsb 31 ∉
    mKeys (self (exec (sendKeys [(30, true); (31, true); (30, false)])
                   SampleKeyboard.start)).
Proof.
  exact (release_drops_shared_usage
    Sample.KEY_CTRL Sample.KEY_SHIFT Sample.KEY_ALT Sample.KEY_LOGO
    Sample.KEY_RCTRL Sample.KEY_RSHIFT Sample.KEY_RALT
    Sample.REPORT_ID_KEYBOARD Sample.keymapUsb Sample.report0 30 31 SampleKeyboard.start eq_refl eq_refl eq_refl).
Defined.

Lemma press_above_held_not_reported_witness :
  let w := mkWorld (mkUsbKeyboard 0 {[4]}) [] in
  gKbMouse (exec (Keyboard.sendKey Sample.KEY_CTRL Sample.KEY_SHIFT Sample.KEY_ALT Sample.KEY_LOGO
    Sample.KEY_RCTRL Sample.KEY_RSHIFT Sample.KEY_RALT
    Sample.REPORT_ID_KEYBOARD Sample.keymapUsb Sample.report0 2 true) w) =
    gKbMouse w ++
      [Send (HID_REPORT.bytes
               (Keyboard.build_report Sample.REPORT_ID_KEYBOARD
                  Sample.report0 (self w)))].
Proof.
  refine (press_above_held_not_reported
    Sample.KEY_CTRL Sample.KEY_SHIFT Sample.KEY_ALT Sample.KEY_LOGO
    Sample.KEY_RCTRL Sample.KEY_RSHIFT Sample.KEY_RALT
    Sample.REPORT_ID_KEYBOARD Sample.keymapUsb Sample.report0 2 4 (mkWorld (mkUsbKeyboard 0 {[4]}) []) eq_refl _ _).
  - cbn [self mKeys]. by apply elem_of_singleton_2.
  - vm_compute. discriminate.
Defined.

Lemma modifier_and_key_commute_witness :
  let sendKey :=
    Keyboard.sendKey Sample.KEY_CTRL Sample.KEY_SHIFT Sample.KEY_ALT Sample.KEY_LOGO
    Sample.KEY_RCTRL Sample.KEY_RSHIFT Sample.KEY_RALT
    Sample.REPORT_ID_KEYBOARD Sample.keymapUsb Sample.report0 in
  self (exec (sendKey 79 true ;; sendKey 1 true) SampleKeyboard.start) =
  self (exec (sendKey 1 true ;; sendKey 79 true) SampleKeyboard.start).
Proof.
  refine (modifier_and_key_commute
    Sample.KEY_CTRL Sample.KEY_SHIFT Sample.KEY_ALT Sample.KEY_LOGO
    Sample.KEY_RCTRL Sample.KEY_RSHIFT Sample.KEY_RALT
    Sample.REPORT_ID_KEYBOARD Sample.keymapUsb Sample.report0 79 1 true true SampleKeyboard.start _ eq_refl).
  vm_compute. discriminate.
Defined.

Lemma clear_then_key_report_witness :
  let w := mkWorld (mkUsbKeyboard Sample.KEY_ALT {[5]}) [] in
  gKbMouse (exec (Keyboard.clear ;; Keyboard.sendKey Sample.KEY_CTRL Sample.KEY_SHIFT Sample.KEY_ALT Sample.KEY_LOGO
    Sample.KEY_RCTRL Sample.KEY_RSHIFT Sample.KEY_RALT
    Sample.REPORT_ID_KEYBOARD Sample.keymapUsb Sample.report0 1 false) w) =
    [Send [to_u8 Sample.REPORT_ID_KEYBOARD; to_u8 Sample.KEY_ALT; 0;
           0; 0; 0; 0; 0; 0]].
Proof.
  exact (clear_then_key_report
    Sample.KEY_CTRL Sample.KEY_SHIFT Sample.KEY_ALT Sample.KEY_LOGO
    Sample.KEY_RCTRL Sample.KEY_RSHIFT Sample.KEY_RALT
    Sample.REPORT_ID_KEYBOARD Sample.keymapUsb Sample.report0 1 false (mkWorld (mkUsbKeyboard Sample.KEY_ALT {[5]}) []) eq_refl).
Defined.

Lemma other_modifier_bits_kept_witness :
  let calls :=
    Keyboard.calls Sample.KEY_CTRL Sample.KEY_SHIFT Sample.KEY_ALT Sample.KEY_LOGO
    Sample.KEY_RCTRL Sample.KEY_RSHIFT Sample.KEY_RALT
    Sample.REPORT_ID_KEYBOARD Sample.keymapUsb Sample.report0 in
  let w := mkWorld (Keyboard.constructed 128) [] in
  Z.testbit
    (mModifiers (self (exec (calls [Keyboard.CallSendKey 79 true;
                                    Keyboard.CallClear;
                                    Keyboard.CallSendKey 79 false]) w))) 7 =
    Z.testbit 128 7.
Proof.
  refine (other_modifier_bits_kept
    Sample.KEY_CTRL Sample.KEY_SHIFT Sample.KEY_ALT Sample.KEY_LOGO
    Sample.KEY_RCTRL Sample.KEY_RSHIFT Sample.KEY_RALT
    Sample.REPORT_ID_KEYBOARD Sample.keymapUsb Sample.report0 [Keyboard.CallSendKey 79 true; Keyboard.CallClear;
         Keyboard.CallSendKey 79 false] 7
    (mkWorld (Keyboard.constructed 128) []) _ eq_refl).
  lia.
Defined.

Lemma sendKey_modifier_code_witness :
  let w := mkWorld (mkUsbKeyboard Sample.KEY_SHIFT {[4]}) [] in
  let after := exec (Keyboard.sendKey Sample.KEY_CTRL Sample.KEY_SHIFT Sample.KEY_ALT Sample.KEY_LOGO
    Sample.KEY_RCTRL Sample.KEY_RSHIFT Sample.KEY_RALT
    Sample.REPORT_ID_KEYBOARD Sample.keymapUsb Sample.report0 79 true) w in
  Z.land (mModifiers (self after)) Sample.KEY_ALT = Sample.KEY_ALT /\
  mKeys (self after) = {[4]}.
Proof.
  assert (Hmod : Keyboard.codeToModifier Sample.KEY_CTRL Sample.KEY_SHIFT
            Sample.KEY_ALT Sample.KEY_LOGO Sample.KEY_RCTRL Sample.KEY_RSHIFT
            Sample.KEY_RALT 79 <> -1) by (vm_compute; discriminate).
  pose proof (sendKey_modifier_code Sample.KEY_CTRL Sample.KEY_SHIFT Sample.KEY_ALT Sample.KEY_LOGO
    Sample.KEY_RCTRL Sample.KEY_RSHIFT Sample.KEY_RALT
    Sample.REPORT_ID_KEYBOARD Sample.keymapUsb Sample.report0 79 true
    (mkWorld (mkUsbKeyboard Sample.KEY_SHIFT {[4]}) []) Hmod)
    as (Hset & _ & Hkeys).
  split; [exact Hset | exact Hkeys].
Defined.

